(** * npm download statistics connector: a verified model of [src/main.js]

    The connector is a Looker Studio (Data Studio) community connector written
    for the Apps Script V8 runtime.  This development embeds its functions
    [validateConfig], [fetchDataFromApi], [normalizeResponse],
    [getFormattedData], [formatData] and [getData] as Rocq functions and proves
    the properties stated for them.

    Modelling conventions:
    - a JS string is a [string]: a sequence of 8-bit code units, the Latin-1
      range of the UTF-16 code units of the runtime;
    - a JS value produced by [JSON.parse] is a [value]; an object is the
      association list of its own enumerable properties in the order in which
      [Object.keys] enumerates them; prototypes are not represented, and
      an assignment to [__proto__], which runs the setter inherited from
      [Object.prototype], defines no own property;
    - numbers are carried through the connector without arithmetic; the
      download counts of the API are integers and are modelled in [Z];
    - a thrown exception is an [exn], a computation that may throw is a
      [result];
    - configuration objects are mutable and shared with the caller: they live
      in a store ([gmap loc ConfigParams]) and are passed by reference;
    - the host services ([UrlFetchApp.fetch], [JSON.parse]) are parameters of
      the model. *)

From Stdlib Require Import Ascii String ZArith.
From stdpp Require Import gmap strings list pretty.

Set Warnings "-register-all".

Local Open Scope string_scope.
Local Open Scope list_scope.
Local Open Scope Z_scope.

(** ** Strings: the built-in methods used by the connector *)

Module JsString.

(** WhiteSpace and LineTerminator code units below 256, the set stripped by
    [String.prototype.trim]: TAB, LF, VT, FF, CR, SP and NBSP. *)
Definition is_white_space (c : ascii) : bool :=
  match nat_of_ascii c with
  | 9%nat | 10%nat | 11%nat | 12%nat | 13%nat | 32%nat | 160%nat => true
  | _ => false
  end.

(** [s.split(sep)] for a one-character separator: the empty string splits
    into one empty element. *)
Fixpoint split (sep : ascii) (s : string) : list string :=
  match s with
  | EmptyString => [EmptyString]
  | String c s' =>
      if Ascii.eqb c sep then EmptyString :: split sep s'
      else match split sep s' with
           | x :: xs => String c x :: xs
           | [] => [String c EmptyString]
           end
  end.

(** [l.join(sep)]. *)
Fixpoint join (sep : string) (l : list string) : string :=
  match l with
  | [] => ""
  | [x] => x
  | x :: xs => x +:+ sep +:+ join sep xs
  end.

Fixpoint trimStart (s : string) : string :=
  match s with
  | EmptyString => EmptyString
  | String c s' => if is_white_space c then trimStart s' else s
  end.

Fixpoint trimEnd (s : string) : string :=
  match s with
  | EmptyString => EmptyString
  | String c s' =>
      match trimEnd s' with
      | EmptyString => if is_white_space c then EmptyString else String c EmptyString
      | r => String c r
      end
  end.

(** [s.trim()]. *)
Definition trim (s : string) : string := trimEnd (trimStart s).

(** [s.replace(/c/g, by)] for a pattern that is the single literal
    character [c]: every occurrence of [c] is replaced, left to right. *)
Fixpoint replace_all (c : ascii) (by_ : string) (s : string) : string :=
  match s with
  | EmptyString => EmptyString
  | String d s' =>
      if Ascii.eqb d c then by_ +:+ replace_all c by_ s'
      else String d (replace_all c by_ s')
  end.

(** [c] occurs in [s]. *)
Fixpoint occurs (c : ascii) (s : string) : bool :=
  match s with
  | EmptyString => false
  | String d s' => Ascii.eqb d c || occurs c s'
  end.

(** The code units of a string, as a list. *)
Fixpoint chars (s : string) : list ascii :=
  match s with
  | EmptyString => []
  | String d s' => d :: chars s'
  end.

End JsString.

(** ** JavaScript values, exceptions and the built-in operations used *)

Module Js.

(** Values as [JSON.parse] builds them, and [undefined]. *)
Inductive value : Type :=
| VUndefined
| VNull
| VBool (b : bool)
| VNum (n : Z)
| VStr (s : string)
| VArr (elems : list value)
| VObj (props : list (string * value)).

(** Exceptions.  [HostError] is what [UrlFetchApp.fetch] throws,
    [UserError] what [cc.newUserError()...throwException()] throws. *)
Inductive exn : Type :=
| SyntaxError (msg : string)
| TypeError (msg : string)
| ReferenceError (msg : string)
| HostError (msg : string)
| UserError (debugText text : string).

(** String conversion of an exception, as in ['...' + e]. *)
Definition exn_to_string (e : exn) : string :=
  match e with
  | SyntaxError msg => "SyntaxError: " +:+ msg
  | TypeError msg => "TypeError: " +:+ msg
  | ReferenceError msg => "ReferenceError: " +:+ msg
  | HostError msg => "Exception: " +:+ msg
  | UserError _ text => "Error: " +:+ text
  end.

(** A computation that returns normally or throws. *)
Inductive result (A : Type) : Type :=
| Ok (a : A)
| Throw (e : exn).
Arguments Ok {A} a.
Arguments Throw {A} e.

#[global] Instance result_ret : MRet result := fun A a => Ok a.
#[global] Instance result_bind : MBind result := fun A B f m =>
  match m with
  | Ok a => f a
  | Throw e => Throw e
  end.

(** Left-to-right iteration with an accumulator, stopping at the first
    exception. *)
Fixpoint foldM {A B : Type} (f : B -> A -> result B) (acc : B) (l : list A)
  : result B :=
  match l with
  | [] => Ok acc
  | x :: l' => acc' ← f acc x; foldM f acc' l'
  end.

(** First property named [k] of an association list. *)
Fixpoint assoc {A : Type} (k : string) (props : list (string * A)) : option A :=
  match props with
  | [] => None
  | (k', v) :: props' => if String.eqb k k' then Some v else assoc k props'
  end.

(** The index an array-index property name denotes, among [n] elements. *)
Definition array_index (k : string) (n : nat) : option nat :=
  fst <$> list_find (fun i : nat => pretty i = k) (seq 0 n).

(** [Object.keys(v)]. *)
Definition Object_keys (v : value) : result (list string) :=
  match v with
  | VUndefined | VNull =>
      Throw (TypeError "Cannot convert undefined or null to object")
  | VBool _ | VNum _ => Ok []
  | VStr s => Ok (pretty <$> seq 0 (String.length s))
  | VArr elems => Ok (pretty <$> seq 0 (length elems))
  | VObj props => Ok (fst <$> props)
  end.

(** Property read [v[k]] (and [v.k]) of an own property, or of a name that
    no prototype defines: the connector reads [downloads], [day] and the
    names [Object.keys] returned. *)
Definition get (v : value) (k : string) : result value :=
  match v with
  | VUndefined => Throw (TypeError "Cannot read properties of undefined")
  | VNull => Throw (TypeError "Cannot read properties of null")
  | VBool _ | VNum _ => Ok VUndefined
  | VStr s =>
      if String.eqb k "length" then Ok (VNum (Z.of_nat (String.length s)))
      else match array_index k (String.length s) with
           | Some i => Ok (VStr (String.substring i 1 s))
           | None => Ok VUndefined
           end
  | VArr elems =>
      if String.eqb k "length" then Ok (VNum (Z.of_nat (length elems)))
      else match array_index k (length elems) with
           | Some i => Ok (default VUndefined (elems !! i))
           | None => Ok VUndefined
           end
  | VObj props => Ok (default VUndefined (assoc k props))
  end.

(** Assignment [o[k] = v] on a new object literal [{}].  It defines the own
    property [k], except for [__proto__]: that name is the accessor inherited
    from [Object.prototype], whose setter changes the prototype of [o] (or
    does nothing, for a primitive [v]) and defines no own property. *)
Definition assign_new_object (k : string) (v : value) : value :=
  if String.eqb k "__proto__" then VObj [] else VObj [(k, v)].

(** Method call [v.map(f)]: only an array has a callable [map]. *)
Definition Array_map {B : Type} (f : value -> result B) (v : value)
  : result (list B) :=
  match v with
  | VArr elems => mapM f elems
  | VUndefined => Throw (TypeError "Cannot read properties of undefined")
  | VNull => Throw (TypeError "Cannot read properties of null")
  | _ => Throw (TypeError "map is not a function")
  end.

(** Method call [v.replace(/-/g, '')]: only a string has a callable
    [replace]. *)
Definition String_replace_dashes (v : value) : result value :=
  match v with
  | VStr s => Ok (VStr (JsString.replace_all "-" "" s))
  | VUndefined => Throw (TypeError "Cannot read properties of undefined")
  | VNull => Throw (TypeError "Cannot read properties of null")
  | _ => Throw (TypeError "replace is not a function")
  end.

End Js.

(** ** The connector *)

Module Connector.
Import Js.

Definition DEFAULT_PACKAGE : string := "googleapis".

(** *** Schema ([getFields]) *)

Inductive FieldType : Type := TEXT | YEAR_MONTH_DAY | NUMBER.
Inductive AggregationType : Type := SUM.
Inductive Concept : Type := Dimension | Metric.

(** A field of the connector SDK; the projections are its getters. *)
Record Field : Type := mkField {
  getConcept : Concept;
  getId : string;
  getName : string;
  getType : FieldType;
  getAggregation : option AggregationType
}.

Definition getFields : list Field :=
  [ mkField Dimension "packageName" "Package" TEXT None;
    mkField Dimension "day" "Date" YEAR_MONTH_DAY None;
    mkField Metric "downloads" "Downloads" NUMBER (Some SUM) ].

(** Modelled from the spec: [Fields.forIds] belongs to the connector SDK,
    which is not part of the repository.  The result holds the field
    descriptors matching the requested ids, in the order of the request. *)
Definition forIds (ids : list string) (fields : list Field) : list Field :=
  ids ≫= fun i => filter (fun f => getId f = i) fields.

(** [Fields.build()]: the schema handed to the host, one entry per field. *)
Definition build (fields : list Field) : list Field := fields.

Definition getSchema : list Field := build getFields.

Definition isAdminUser : bool := true.

(** *** Requests and the store of configuration objects *)

Definition loc : Type := positive.

(** A configuration object: its [package] property, absent or a string,
    and its other properties. *)
Record ConfigParams : Type := mkConfig {
  package : option string;
  others : list (string * string)
}.

#[global] Instance ConfigParams_inhabited : Inhabited ConfigParams :=
  populate (mkConfig None []).

Record DateRange : Type := mkDateRange {
  startDate : string;
  endDate : string
}.

Record RequestField : Type := mkRequestField { name : string }.

(** The request object; [configParams] is [undefined] ([None]) or a
    reference to a configuration object. *)
Record Request : Type := mkRequest {
  configParams : option loc;
  dateRange : DateRange;
  fields : list RequestField
}.

(** Assignment [o.package = p] to the object at [l]. *)
Definition set_package (l : loc) (p : string) (σ : gmap loc ConfigParams)
  : gmap loc ConfigParams :=
  <[l := mkConfig (Some p) (others (σ !!! l))]> σ.

(** [v || d] for a property that is absent or a string: the empty string
    is the only falsy string. *)
Definition or_else (v : option string) (d : string) : string :=
  match v with
  | None | Some "" => d
  | Some s => s
  end.

(** *** [validateConfig] *)

Definition validateConfig (configParams : option loc) (σ : gmap loc ConfigParams)
  : loc * gmap loc ConfigParams :=
  (* configParams = configParams || {} *)
  let '(l, σ0) :=
    match configParams with
    | Some l => (l, σ)
    | None => let l := fresh (dom σ) in (l, <[l := mkConfig None []]> σ)
    end in
  (* configParams.package = configParams.package || DEFAULT_PACKAGE *)
  let p := or_else (package (σ0 !!! l)) DEFAULT_PACKAGE in
  let σ1 := set_package l p σ0 in
  (* configParams.package = configParams.package.split(',').map(trim).join(',') *)
  let p' := JsString.join "," (JsString.trim <$> JsString.split "," p) in
  let σ2 := set_package l p' σ1 in
  (l, σ2).

(** *** Rows *)

Record Row : Type := mkRow { values : list value }.

(** *** [formatData] *)

Definition formatData (requestedFields : list Field) (packageName : string)
    (dailyDownload : value) : result Row :=
  row ← mapM (fun requestedField =>
    if String.eqb (getId requestedField) "day" then
      day ← get dailyDownload "day"; String_replace_dashes day
    else if String.eqb (getId requestedField) "downloads" then
      get dailyDownload "downloads"
    else if String.eqb (getId requestedField) "packageName" then
      Ok (VStr packageName)
    else
      Ok (VStr "")) requestedFields;
  Ok (mkRow row).

(** *** [getFormattedData] *)

Definition getFormattedData (response : value) (requestedFields : list Field)
  : result (list Row) :=
  keys ← Object_keys response;
  foldM (fun data packageName =>
    package ← get response packageName;
    downloadData ← get package "downloads";
    formattedData ← Array_map (formatData requestedFields packageName) downloadData;
    Ok (data ++ formattedData)) [] keys.

(** *** Scopes and the result of [getData] *)

(** What an identifier can be bound to. *)
Inductive binding : Type :=
| BFunction
| BHostObject
| BString (s : string)
| BRequest (r : Request)
| BFields (fs : list Field)
| BValue (v : value)
| BRows (rows : list Row).

Definition scope : Type := list (string * binding).

(** Identifier resolution along a scope chain, innermost scope first. *)
Fixpoint resolve (x : string) (chain : list scope) : result binding :=
  match chain with
  | [] => Throw (ReferenceError (x +:+ " is not defined"))
  | s :: chain' =>
      match assoc x s with
      | Some b => Ok b
      | None => resolve x chain'
      end
  end.

(** The global scope: the declarations of [main.js] and the host objects
    it uses. *)
Definition global_scope : scope :=
  [ ("cc", BHostObject); ("DEFAULT_PACKAGE", BString DEFAULT_PACKAGE);
    ("getConfig", BFunction); ("getAuthType", BFunction);
    ("getFields", BFunction); ("getSchema", BFunction);
    ("getData", BFunction); ("fetchDataFromApi", BFunction);
    ("normalizeResponse", BFunction); ("getFormattedData", BFunction);
    ("isAdminUser", BFunction); ("validateConfig", BFunction);
    ("formatData", BFunction);
    ("DataStudioApp", BHostObject); ("UrlFetchApp", BHostObject);
    ("JSON", BHostObject); ("Object", BHostObject) ].

Definition unrecoverable_text : string :=
  "The connector has encountered an unrecoverable error. Please try again later, or file an issue if this error persists.".

(** The object [getData] returns. *)
Record DataResponse : Type := mkDataResponse {
  schema : list Field;
  rows : binding
}.

(** [request.configParams], dereferenced. *)
Definition deref (r : Request) (σ : gmap loc ConfigParams) : result ConfigParams :=
  match configParams r with
  | Some l => Ok (σ !!! l)
  | None => Throw (TypeError "Cannot read properties of undefined")
  end.

(** The URL [fetchDataFromApi] builds with [[...].join('')]; an absent
    element joins as the empty string. *)
Definition api_url (range : DateRange) (c : ConfigParams) : string :=
  JsString.join ""
    [ "https://api.npmjs.org/downloads/range/";
      startDate range;
      ":";
      endDate range;
      "/";
      default "" (package c) ].

Section Host.

(** The host: [UrlFetchApp.fetch] maps a URL to the response text or
    throws; [JSON.parse] maps a text to a value or throws. *)
Variable UrlFetchApp_fetch : string -> result string.
Variable JSON_parse : string -> result value.

(** *** [fetchDataFromApi] *)

Definition fetchDataFromApi (request : Request) (σ : gmap loc ConfigParams)
  : result string :=
  c ← deref request σ;
  let url := api_url (dateRange request) c in
  UrlFetchApp_fetch url.

(** *** [normalizeResponse] *)

Definition normalizeResponse (request : Request) (σ : gmap loc ConfigParams)
    (responseString : string) : result value :=
  response ← JSON_parse responseString;
  c ← deref request σ;
  p ← match package c with
      | Some p => Ok p
      | None => Throw (TypeError "Cannot read properties of undefined")
      end;
  let package_list := JsString.split "," p in
  if (length package_list =? 1)%nat then
    (* mapped_response[package_list[0]] = response, on a new object *)
    Ok (assign_new_object (default "undefined" (head package_list)) response)
  else
    Ok response.

(** *** [getData] *)

(** The body of the [try] block.  Its three [let] declarations are scoped
    to the block; the result is the block's scope when its end is
    reached. *)
Definition getData_try (request : Request) (σ : gmap loc ConfigParams)
    (requestedFields : list Field) : result scope :=
  apiResponse ← fetchDataFromApi request σ;
  normalizedResponse ← normalizeResponse request σ apiResponse;
  data ← getFormattedData normalizedResponse requestedFields;
  Ok [ ("apiResponse", BString apiResponse);
       ("normalizedResponse", BValue normalizedResponse);
       ("data", BRows data) ].

(** [getData] returns its outcome together with the request object and
    the store as it leaves them. *)
Definition getData (request : Request) (σ : gmap loc ConfigParams)
  : result DataResponse * (Request * gmap loc ConfigParams) :=
  (* request.configParams = validateConfig(request.configParams) *)
  let '(c, σ') := validateConfig (configParams request) σ in
  let request := mkRequest (Some c) (dateRange request) (fields request) in
  let requestedFields := forIds (name <$> fields request) getFields in
  let function_scope : scope :=
    [ ("request", BRequest request);
      ("requestedFields", BFields requestedFields) ] in
  let outcome :=
    match getData_try request σ' requestedFields with
    | Throw e =>
        (* catch (e) { cc.newUserError()...throwException() } *)
        Throw (UserError
                 ("Error fetching data from API. Exception details: "
                    +:+ exn_to_string e)
                 unrecoverable_text)
    | Ok block_scope =>
        (* the block scope ended with the try block; the return
           statement sees the function scope and the global scope *)
        data ← resolve "data" [function_scope; global_scope];
        Ok (mkDataResponse (build requestedFields) data)
    end in
  (outcome, (request, σ')).

End Host.

End Connector.

(** ** The data model of the specification, and its image in the store and
    among the JavaScript values *)

Module Model.
Import Js Connector.

(** One day's count of one package. *)
Record DailyDownload : Type := mkDaily {
  day : string;
  downloads : Z
}.

(** The normalized response: package names, each with its days, in the
    order of the mapping. *)
Definition NormalizedResponse : Type := list (string * list DailyDownload).

Definition of_daily (d : DailyDownload) : value :=
  VObj [("day", VStr (day d)); ("downloads", VNum (downloads d))].

Definition of_package (days : list DailyDownload) : value :=
  VObj [("downloads", VArr (of_daily <$> days))].

Definition of_normalized (r : NormalizedResponse) : value :=
  VObj (prod_map id of_package <$> r).

(** The (package, day) observations of a response, packages in the order
    of the mapping, days in the order of each package's sequence. *)
Definition observations (r : NormalizedResponse) : list (string * DailyDownload) :=
  r ≫= fun pd => pair pd.1 <$> pd.2.

(** The value an observation has for a field id. *)
Definition field_value (packageName : string) (d : DailyDownload) (fid : string)
  : value :=
  if decide (fid = "day") then
    VStr (String.string_of_list_ascii
            (filter (fun c => c ≠ "-"%char) (JsString.chars (day d))))
  else if decide (fid = "downloads") then VNum (downloads d)
  else if decide (fid = "packageName") then VStr packageName
  else VStr "".

(** The output row of an observation for a list of requested fields. *)
Definition output_row (fs : list Field) (o : string * DailyDownload) : Row :=
  mkRow (field_value o.1 o.2 ∘ getId <$> fs).

(** The [package] property of the configuration a caller passes
    ([undefined], or a reference into the store). *)
Definition input_package (c : option loc) (σ : gmap loc ConfigParams)
  : option string :=
  l ← c; o ← σ !! l; package o.

(** A property that is absent or blank: not there, or a string holding
    nothing but white space, the empty string included. *)
Definition absent_or_blank (p : option string) : Prop :=
  p = None ∨ ∃ s, p = Some s ∧ JsString.trim s = "".

(** The [package] property of the configuration [validateConfig] returns. *)
Definition resolved_package (c : option loc) (σ : gmap loc ConfigParams)
  : option string :=
  let '(l, σ') := validateConfig c σ in o ← σ' !! l; package o.

(** The upstream fails for a URL: the fetch throws, or the text it returns
    does not parse. *)
Definition upstream_fails (fetch : string -> result string)
    (parse : string -> result value) (url : string) (e : exn) : Prop :=
  fetch url = Throw e ∨ ∃ text, fetch url = Ok text ∧ parse text = Throw e.

(** The URL [getData] fetches: the one built from the resolved
    configuration. *)
Definition resolved_url (request : Request) (σ : gmap loc ConfigParams) : string :=
  let '(l, σ') := validateConfig (configParams request) σ in
  api_url (dateRange request) (σ' !!! l).

(** *** End-to-end scenario 1 *)

Definition scenario_1_store : gmap loc ConfigParams :=
  {[ 1%positive := mkConfig (Some "left-pad") [] ]}.

Definition scenario_1_request : Request :=
  mkRequest (Some 1%positive) (mkDateRange "2023-01-01" "2023-01-02")
    [ mkRequestField "packageName"; mkRequestField "day";
      mkRequestField "downloads" ].

Definition scenario_1_url : string :=
  "https://api.npmjs.org/downloads/range/2023-01-01:2023-01-02/left-pad".

Definition scenario_1_response : value :=
  VObj [("downloads",
         VArr [ VObj [("day", VStr "2023-01-01"); ("downloads", VNum 10)];
                VObj [("day", VStr "2023-01-02"); ("downloads", VNum 20)] ])].

Definition scenario_1_rows : list Row :=
  [ mkRow [VStr "left-pad"; VStr "20230101"; VNum 10];
    mkRow [VStr "left-pad"; VStr "20230102"; VNum 20] ].

End Model.

Import Js Connector Model.

(** ** Facts about the string methods *)

Section StringFacts.
Import JsString.

Lemma append_cons (c : ascii) (s t : string) :
  String c s +:+ t = String c (s +:+ t).
Proof. reflexivity. Qed.

Lemma append_nil (t : string) : "" +:+ t = t.
Proof. reflexivity. Qed.

Lemma split_not_nil (sep : ascii) (s : string) : split sep s ≠ [].
Proof.
  destruct s as [|c s]; simpl; [discriminate|].
  destruct (Ascii.eqb c sep); [discriminate|].
  destruct (split sep s); discriminate.
Qed.

Lemma split_without_sep (sep : ascii) (s : string) :
  occurs sep s = false → split sep s = [s].
Proof.
  induction s as [|c s IH]; simpl; [done|].
  intros [Hc Hs]%orb_false_iff. rewrite Hc, (IH Hs). done.
Qed.

Lemma split_append_sep (sep : ascii) (x s : string) :
  occurs sep x = false →
  split sep (x +:+ String sep s) = x :: split sep s.
Proof.
  induction x as [|c x IH]; intros Hx.
  - rewrite append_nil. simpl. by rewrite Ascii.eqb_refl.
  - simpl in Hx. apply orb_false_iff in Hx as [Hc Hx].
    rewrite append_cons. simpl. rewrite Hc, (IH Hx). done.
Qed.

(** Splitting a joined list of separator-free elements gives the list
    back. *)
Lemma split_join (sep : ascii) (l : list string) :
  l ≠ [] → Forall (fun x => occurs sep x = false) l →
  split sep (join (String sep "") l) = l.
Proof.
  intros Hl Hall. induction Hall as [|x l Hx Hall IH]; [done|].
  destruct l as [|y l].
  - simpl. by apply split_without_sep.
  - change (join (String sep "") (x :: y :: l))
      with (x +:+ String sep "" +:+ join (String sep "") (y :: l)).
    rewrite append_cons, append_nil, (split_append_sep _ _ _ Hx).
    f_equal. by apply IH.
Qed.

Lemma occurs_trimStart (c : ascii) (s : string) :
  occurs c s = false → occurs c (trimStart s) = false.
Proof.
  induction s as [|d s IH]; simpl; [done|].
  intros H. pose proof H as [Hd Hs]%orb_false_iff.
  destruct (is_white_space d); [by apply IH|done].
Qed.

Lemma occurs_trimEnd (c : ascii) (s : string) :
  occurs c s = false → occurs c (trimEnd s) = false.
Proof.
  induction s as [|d s IH]; simpl; [done|].
  intros [Hd Hs]%orb_false_iff. specialize (IH Hs).
  destruct (trimEnd s) as [|e r] eqn:Hr.
  - destruct (is_white_space d); simpl; [done|by rewrite Hd].
  - change (occurs c (String d (String e r))) with (Ascii.eqb d c || occurs c (String e r)).
    by rewrite Hd, IH.
Qed.

Lemma occurs_trim (c : ascii) (s : string) :
  occurs c s = false → occurs c (trim s) = false.
Proof. intros H. by apply occurs_trimEnd, occurs_trimStart. Qed.

(** Replacing every dash by the empty string keeps the other characters,
    in order. *)
Lemma chars_replace_dashes (s : string) :
  chars (replace_all "-" "" s) = filter (fun c => c ≠ "-"%char) (chars s).
Proof.
  induction s as [|d s IH]; simpl; [done|].
  destruct (Ascii.eqb d "-") eqn:Hd.
  - apply Ascii.eqb_eq in Hd as ->. rewrite append_nil, IH.
    by rewrite filter_cons_False by (intros H; by apply H).
  - apply Ascii.eqb_neq in Hd. simpl. rewrite IH.
    by rewrite filter_cons_True.
Qed.

Lemma occurs_replace_dashes (s : string) :
  occurs "-" (replace_all "-" "" s) = false.
Proof.
  induction s as [|d s IH]; simpl; [done|].
  destruct (Ascii.eqb d "-") eqn:Hd; [by rewrite append_nil|].
  simpl. by rewrite Hd.
Qed.

Lemma string_of_chars (s : string) : String.string_of_list_ascii (chars s) = s.
Proof. induction s as [|d s IH]; simpl; [done|by rewrite IH]. Qed.

Lemma split_elements_without_sep (sep : ascii) (s : string) :
  Forall (fun x => occurs sep x = false) (split sep s).
Proof.
  induction s as [|c s IH]; simpl; [by repeat constructor|].
  destruct (Ascii.eqb c sep) eqn:Hc; [by constructor|].
  destruct (split sep s) as [|x xs]; [by repeat constructor; simpl; rewrite Hc|].
  apply Forall_cons in IH as [Hx Hxs].
  constructor; [simpl; by rewrite Hc, Hx|done].
Qed.

Lemma trimEnd_trimEnd (s : string) : trimEnd (trimEnd s) = trimEnd s.
Proof.
  induction s as [|c s IH]; [done|].
  cbn [trimEnd]. destruct (trimEnd s) as [|e r] eqn:Hr.
  - destruct (is_white_space c) eqn:Hc; [done|].
    cbn [trimEnd]. by rewrite Hc.
  - change (trimEnd (String c (String e r)))
      with (match trimEnd (String e r) with
            | "" => if is_white_space c then "" else String c ""
            | String _ _ as r' => String c r'
            end).
    by rewrite IH.
Qed.

Lemma trimStart_head (s : string) :
  trimStart s = ""
  ∨ ∃ c t, trimStart s = String c t ∧ is_white_space c = false.
Proof.
  induction s as [|c s IH]; [by left|].
  cbn [trimStart]. destruct (is_white_space c) eqn:Hc; [done|].
  right. by exists c, s.
Qed.

Lemma trimEnd_head (c : ascii) (t : string) :
  is_white_space c = false → ∃ t', trimEnd (String c t) = String c t'.
Proof.
  intros Hc. cbn [trimEnd]. rewrite Hc. destruct (trimEnd t); eauto.
Qed.

(** Trimming a trimmed string changes nothing. *)
Lemma trim_trim (s : string) : trim (trim s) = trim s.
Proof.
  unfold trim. destruct (trimStart_head s) as [-> | (c & t & -> & Hc)]; [done|].
  destruct (trimEnd_head c t Hc) as [t' Ht']. rewrite Ht' at 1.
  cbn [trimStart]. rewrite Hc, <- Ht'. apply trimEnd_trimEnd.
Qed.

(** A string that trims to nothing holds no comma. *)
Lemma trim_empty_no_comma (p : string) :
  trim p = "" → occurs "," p = false.
Proof.
  unfold trim. intros Ht.
  assert (Hs : trimStart p = "").
  { destruct (trimStart_head p) as [Hs | (c & t & Hs & Hc)]; [done|].
    rewrite Hs in Ht. destruct (trimEnd_head c t Hc) as [t' Ht'].
    by rewrite Ht' in Ht. }
  clear Ht. induction p as [|c p IH]; [done|].
  cbn [trimStart] in Hs. cbn [occurs].
  destruct (is_white_space c) eqn:Hc; [|done].
  rewrite (IH Hs), orb_false_r.
  destruct (Ascii.eqb_spec c ",") as [->|_]; [discriminate|done].
Qed.

End StringFacts.

(** ** Facts about the built-in operations *)

Lemma mapM_fmap_Ok {A B C : Type} (f : B → result C) (h : A → B) (g : A → C)
    (l : list A) :
  (∀ x, x ∈ l → f (h x) = Ok (g x)) → mapM f (h <$> l) = Ok (g <$> l).
Proof.
  induction l as [|x l IH]; intros Hf; [done|].
  rewrite !fmap_cons.
  change (mapM f (h x :: (h <$> l)))
    with (y ← f (h x); k ← mapM f (h <$> l); mret (y :: k)).
  rewrite (Hf x) by left.
  rewrite IH by (intros y Hy; apply Hf; by right). done.
Qed.

Lemma mapM_Ok {A B : Type} (f : A → result B) (g : A → B) (l : list A) :
  (∀ x, x ∈ l → f x = Ok (g x)) → mapM f l = Ok (g <$> l).
Proof.
  intros Hf. rewrite <- (list_fmap_id l) at 1. by apply mapM_fmap_Ok.
Qed.

Lemma assoc_fmap_NoDup {A B : Type} (h : A → B) (r : list (string * A))
    (k : string) (a : A) :
  NoDup r.*1 → (k, a) ∈ r → assoc k (prod_map id h <$> r) = Some (h a).
Proof.
  induction r as [|[k' a'] r IH]; simpl; intros Hnd Hin.
  - by apply elem_of_nil in Hin.
  - apply NoDup_cons in Hnd as [Hk' Hnd].
    apply elem_of_cons in Hin as [Heq|Hin].
    + injection Heq as -> ->. by rewrite String.eqb_refl.
    + destruct (String.eqb_spec k k') as [->|_]; [|by apply IH].
      exfalso. apply Hk'. apply list_elem_of_fmap. by exists (k', a).
Qed.

(** ** The row formatter *)

(** The value [formatData] computes for one requested field of a
    well-formed observation. *)
Lemma formatData_field (packageName : string) (d : DailyDownload) (f : Field) :
  (if String.eqb (getId f) "day" then
     day ← get (of_daily d) "day"; String_replace_dashes day
   else if String.eqb (getId f) "downloads" then get (of_daily d) "downloads"
   else if String.eqb (getId f) "packageName" then Ok (VStr packageName)
   else Ok (VStr ""))
  = Ok (field_value packageName d (getId f)).
Proof.
  unfold field_value.
  destruct (String.eqb_spec (getId f) "day") as [->|Hday].
  - simpl. by rewrite <- chars_replace_dashes, string_of_chars.
  - rewrite decide_False by done.
    destruct (String.eqb_spec (getId f) "downloads") as [->|Hdl]; [done|].
    rewrite decide_False by done.
    destruct (String.eqb_spec (getId f) "packageName") as [->|Hpn]; [done|].
    by rewrite decide_False by done.
Qed.

Lemma formatData_output_row (fs : list Field) (packageName : string)
    (d : DailyDownload) :
  formatData fs packageName (of_daily d) = Ok (output_row fs (packageName, d)).
Proof.
  unfold formatData, output_row.
  erewrite mapM_Ok; [done|].
  intros f _. apply formatData_field.
Qed.

Lemma Array_map_formatData (fs : list Field) (packageName : string)
    (days : list DailyDownload) :
  Array_map (formatData fs packageName) (VArr (of_daily <$> days))
  = Ok (output_row fs ∘ pair packageName <$> days).
Proof.
  simpl. apply mapM_fmap_Ok.
  intros d _. apply formatData_output_row.
Qed.

Lemma observations_cons (p : string) (days : list DailyDownload)
    (r : NormalizedResponse) :
  observations ((p, days) :: r) = (pair p <$> days) ++ observations r.
Proof. reflexivity. Qed.

Lemma length_observations (r : NormalizedResponse) :
  length (observations r) = sum_list (length ∘ snd <$> r).
Proof.
  induction r as [|[p days] r IH]; [done|].
  rewrite observations_cons, length_app, length_fmap, IH. done.
Qed.

(** One iteration of the loop of [getFormattedData], for a package whose
    property holds well-formed data. *)
Lemma getFormattedData_step (fs : list Field) (props : list (string * value))
    (packageName : string) (days : list DailyDownload) (data : list Row) :
  assoc packageName props = Some (of_package days) →
  (package ← get (VObj props) packageName;
   downloadData ← get package "downloads";
   formattedData ← Array_map (formatData fs packageName) downloadData;
   Ok (data ++ formattedData))
  = Ok (data ++ (output_row fs ∘ pair packageName <$> days)).
Proof.
  intros Hp.
  change (get (VObj props) packageName)
    with (Ok (default VUndefined (assoc packageName props))).
  rewrite Hp.
  change (Ok (default VUndefined (Some (of_package days))) ≫= ?k)
    with (formattedData ← Array_map (formatData fs packageName)
                             (VArr (of_daily <$> days));
          Ok (data ++ formattedData)).
  by rewrite Array_map_formatData.
Qed.

(** A loop that appends the rows of each element in turn. *)
Lemma foldM_append {A K B : Type} (F : list B → K → result (list B))
    (h : A → K) (g : A → list B) (l : list A) (acc : list B) :
  (∀ data x, x ∈ l → F data (h x) = Ok (data ++ g x)) →
  foldM F acc (h <$> l) = Ok (acc ++ (l ≫= g)).
Proof.
  revert acc. induction l as [|x l IH]; intros acc HF.
  - simpl. by rewrite app_nil_r.
  - rewrite fmap_cons.
    change (foldM F acc (h x :: (h <$> l)))
      with (acc' ← F acc (h x); foldM F acc' (h <$> l)).
    rewrite HF by left.
    change (Ok (acc ++ g x) ≫= ?k) with (foldM F (acc ++ g x) (h <$> l)).
    rewrite IH by (intros data y Hy; apply HF; by right).
    by rewrite bind_cons, app_assoc.
Qed.

Lemma output_rows_observations (fs : list Field) (r : NormalizedResponse) :
  r ≫= (fun pd => output_row fs ∘ pair pd.1 <$> pd.2)
  = output_row fs <$> observations r.
Proof.
  induction r as [|[p days] r IH]; [done|].
  rewrite bind_cons, IH, observations_cons, fmap_app, <- list_fmap_compose.
  done.
Qed.

(** C5: for every list of requested fields and every (package, day)
    observation, [formatData] returns a row with one value per requested
    field, in the order of the request: the value at each position is the one
    selected by the id of the field at that position, and an id other than
    [day], [downloads] and [packageName] gives the empty string, not an
    error. *)
Theorem formatData_row_per_field (fs : list Field) (packageName : string)
    (d : DailyDownload) :
  ∃ row, formatData fs packageName (of_daily d) = Ok row
    ∧ length (values row) = length fs
    ∧ (∀ i f, fs !! i = Some f →
         values row !! i = Some (field_value packageName d (getId f)))
    ∧ (∀ i f, fs !! i = Some f →
         getId f ≠ "day" → getId f ≠ "downloads" → getId f ≠ "packageName" →
         values row !! i = Some (VStr "")).
Proof.
  exists (output_row fs (packageName, d)).
  assert (Hpos : ∀ i f, fs !! i = Some f →
    values (output_row fs (packageName, d)) !! i
    = Some (field_value packageName d (getId f))).
  { intros i f Hf. unfold output_row. simpl.
    by rewrite list_lookup_fmap, Hf. }
  split; [apply formatData_output_row|].
  split; [unfold output_row; simpl; by rewrite length_fmap|].
  split; [exact Hpos|].
  intros i f Hf Hday Hdl Hpn. rewrite (Hpos i f Hf).
  unfold field_value. by rewrite !decide_False by done.
Qed.

(** C8: formatting the [day] field of a daily entry removes every dash: the
    value is the day string without its dashes, the other characters kept in
    order. *)
Theorem formatData_day_without_dashes (fs : list Field) (i : nat) (f : Field)
    (packageName : string) (d : DailyDownload) :
  fs !! i = Some f → getId f = "day" →
  ∃ row s, formatData fs packageName (of_daily d) = Ok row
    ∧ values row !! i = Some (VStr s)
    ∧ JsString.occurs "-" s = false
    ∧ JsString.chars s
      = filter (fun c => c ≠ "-"%char) (JsString.chars (day d)).
Proof.
  intros Hf Hid.
  exists (output_row fs (packageName, d)), (JsString.replace_all "-" "" (day d)).
  split; [apply formatData_output_row|].
  split.
  - unfold output_row. simpl. rewrite list_lookup_fmap, Hf. simpl.
    unfold field_value. rewrite Hid, decide_True by done.
    by rewrite <- chars_replace_dashes, string_of_chars.
  - split; [apply occurs_replace_dashes|apply chars_replace_dashes].
Qed.

Lemma formatData_day_without_dashes_witness :
  ∃ row s, formatData getFields "left-pad" (of_daily (mkDaily "2023-01-05" 7)) = Ok row
    ∧ values row !! 1%nat = Some (VStr s)
    ∧ JsString.occurs "-" s = false
    ∧ JsString.chars s
      = filter (fun c => c ≠ "-"%char) (JsString.chars "2023-01-05").
Proof.
  apply (formatData_day_without_dashes getFields 1
           (mkField Dimension "day" "Date" YEAR_MONTH_DAY None)
           "left-pad" (mkDaily "2023-01-05" 7)); reflexivity.
Defined.

Example formatData_day_example :
  formatData getFields "left-pad" (of_daily (mkDaily "2023-01-05" 7))
  = Ok (mkRow [VStr "left-pad"; VStr "20230105"; VNum 7]).
Proof. reflexivity. Qed.

(** C4: for every normalized response, [getFormattedData] returns one row
    per (package, day) pair, packages in the order of the mapping and days in
    the order of each package's sequence; the number of rows is the sum of
    the packages' day counts. *)
Theorem getFormattedData_one_row_per_observation (fs : list Field)
    (r : NormalizedResponse) :
  NoDup r.*1 →
  ∃ rows, getFormattedData (of_normalized r) fs = Ok rows
    ∧ rows = output_row fs <$> observations r
    ∧ length rows = sum_list (length ∘ snd <$> r).
Proof.
  intros Hnd. exists (output_row fs <$> observations r).
  split; [|split; [done|by rewrite length_fmap, length_observations]].
  unfold getFormattedData, of_normalized. cbn [Object_keys mbind result_bind].
  replace (fst <$> (prod_map id of_package <$> r)) with (r.*1)
    by (rewrite <- list_fmap_compose; by apply list_fmap_ext; intros ? []).
  rewrite (foldM_append _ fst (fun pd => output_row fs ∘ pair pd.1 <$> pd.2)).
  - by rewrite app_nil_l, output_rows_observations.
  - intros data [p days] Hin. apply getFormattedData_step.
    by apply assoc_fmap_NoDup.
Qed.

Lemma getFormattedData_one_row_per_observation_witness :
  ∃ rows,
    getFormattedData
      (of_normalized [("a", [mkDaily "2023-01-01" 5; mkDaily "2023-01-02" 6]);
                      ("b", [mkDaily "2023-01-01" 7])])
      (forIds ["packageName"; "downloads"] getFields) = Ok rows
    ∧ rows = output_row (forIds ["packageName"; "downloads"] getFields)
               <$> observations
                     [("a", [mkDaily "2023-01-01" 5; mkDaily "2023-01-02" 6]);
                      ("b", [mkDaily "2023-01-01" 7])]
    ∧ length rows = sum_list [2; 1]%nat.
Proof.
  apply (getFormattedData_one_row_per_observation
           (forIds ["packageName"; "downloads"] getFields)
           [("a", [mkDaily "2023-01-01" 5; mkDaily "2023-01-02" 6]);
            ("b", [mkDaily "2023-01-01" 7])]).
  compute_done.
Defined.

Example getFormattedData_example :
  getFormattedData
    (of_normalized [("a", [mkDaily "2023-01-01" 5; mkDaily "2023-01-02" 6]);
                    ("b", [mkDaily "2023-01-01" 7])])
    (forIds ["packageName"; "downloads"] getFields)
  = Ok [mkRow [VStr "a"; VNum 5]; mkRow [VStr "a"; VNum 6]; mkRow [VStr "b"; VNum 7]].
Proof. reflexivity. Qed.

(** ** The config resolver *)

Lemma or_else_nonempty (p d : string) : p ≠ "" → or_else (Some p) d = p.
Proof. by destruct p. Qed.

Lemma set_package_twice (l : loc) (p p' : string) (σ : gmap loc ConfigParams) :
  set_package l p' (set_package l p σ)
  = <[l := mkConfig (Some p') (others (σ !!! l))]> σ.
Proof.
  unfold set_package. by rewrite lookup_total_insert_eq, insert_insert_eq.
Qed.

(** [validateConfig] on an existing object: the object is updated in place. *)
Lemma validateConfig_Some (l : loc) (σ : gmap loc ConfigParams) :
  validateConfig (Some l) σ
  = (l, <[l := mkConfig
                 (Some (JsString.join ","
                          (JsString.trim
                             <$> JsString.split ","
                                   (or_else (package (σ !!! l)) DEFAULT_PACKAGE))))
                 (others (σ !!! l))]> σ).
Proof. unfold validateConfig. by rewrite set_package_twice. Qed.

(** [validateConfig] without an object: a new object is allocated. *)
Lemma validateConfig_None (σ : gmap loc ConfigParams) :
  validateConfig None σ
  = (fresh (dom σ), <[fresh (dom σ) := mkConfig (Some DEFAULT_PACKAGE) []]> σ).
Proof.
  unfold validateConfig. rewrite set_package_twice.
  by rewrite lookup_total_insert_eq, insert_insert_eq.
Qed.

Lemma fmap_trim_id (names : list string) :
  Forall (fun x => JsString.trim x = x) names → JsString.trim <$> names = names.
Proof.
  induction 1 as [|x l Hx _ IH]; [done|]. by rewrite fmap_cons, Hx, IH.
Qed.

(** An absent or empty [package] is replaced by the default. *)
Lemma validateConfig_default_empty (c : option loc) (σ : gmap loc ConfigParams) :
  input_package c σ = None ∨ input_package c σ = Some "" →
  resolved_package c σ = Some DEFAULT_PACKAGE.
Proof.
  intros Hblank. unfold resolved_package. destruct c as [l|].
  - rewrite validateConfig_Some, lookup_insert_eq. simpl.
    assert (or_else (package (σ !!! l)) DEFAULT_PACKAGE = DEFAULT_PACKAGE) as ->;
      [|done].
    rewrite lookup_total_alt. unfold input_package in Hblank. simpl in Hblank.
    destruct (σ !! l) as [o|]; simpl in *; [|done].
    by destruct Hblank as [-> | ->].
  - by rewrite validateConfig_None, lookup_insert_eq.
Qed.

(** A [package] that is not empty and holds white space only is trimmed to
    the empty string; the default is not substituted. *)
Lemma validateConfig_white_space_resolved (c : option loc)
    (σ : gmap loc ConfigParams) (p : string) :
  input_package c σ = Some p → p ≠ "" → JsString.trim p = "" →
  resolved_package c σ = Some "".
Proof.
  intros Hin Hne Htrim. destruct c as [l|]; [|done].
  unfold input_package in Hin. cbn [mbind option_bind] in Hin.
  unfold resolved_package. rewrite validateConfig_Some, lookup_insert_eq.
  cbn [mbind option_bind package]. rewrite lookup_total_alt.
  destruct (σ !! l) as [o|]; [|done]. cbn [mbind option_bind] in Hin.
  cbn [default from_option id]. rewrite Hin, or_else_nonempty by done.
  rewrite (split_without_sep "," p (trim_empty_no_comma p Htrim)).
  cbn [fmap list_fmap JsString.join]. by rewrite Htrim.
Qed.

(** C6: on a configuration that is absent, or whose [package] is absent or
    blank, [validateConfig] substitutes the default package name only when
    the [package] is absent or empty.  A blank [package] that is not empty,
    white space only, is tested before it is trimmed: it is not replaced by
    the default and resolves to the empty string. *)
Theorem validateConfig_blank (c : option loc) (σ : gmap loc ConfigParams) :
  absent_or_blank (input_package c σ) →
  (input_package c σ = None ∨ input_package c σ = Some "" →
     resolved_package c σ = Some DEFAULT_PACKAGE)
  ∧ (∀ s, input_package c σ = Some s → s ≠ "" →
       resolved_package c σ = Some "").
Proof.
  intros Hblank. split; [apply validateConfig_default_empty|].
  intros s Hs Hne. destruct Hblank as [Hnone | (s' & Hs' & Htrim)].
  - congruence.
  - assert (s' = s) as -> by congruence.
    by apply (validateConfig_white_space_resolved c σ s).
Qed.

Lemma validateConfig_blank_witness :
  (input_package (Some 1%positive) {[ 1%positive := mkConfig (Some "  ") [] ]} = None
   ∨ input_package (Some 1%positive) {[ 1%positive := mkConfig (Some "  ") [] ]}
     = Some "" →
   resolved_package (Some 1%positive) {[ 1%positive := mkConfig (Some "  ") [] ]}
   = Some DEFAULT_PACKAGE)
  ∧ (∀ s, input_package (Some 1%positive)
            {[ 1%positive := mkConfig (Some "  ") [] ]} = Some s →
       s ≠ "" →
       resolved_package (Some 1%positive)
         {[ 1%positive := mkConfig (Some "  ") [] ]} = Some "").
Proof.
  apply (validateConfig_blank (Some 1%positive)
           {[ 1%positive := mkConfig (Some "  ") [] ]}).
  right. exists "  ". split; reflexivity.
Defined.

(** The white-space-only [package] of two spaces. *)
Example validateConfig_white_space_only :
  resolved_package (Some 1%positive) {[ 1%positive := mkConfig (Some "  ") [] ]}
  = Some "".
Proof. unfold resolved_package. by rewrite validateConfig_Some, lookup_insert_eq. Qed.

(** C7: when the [package] value is a comma-separated list of elements,
    possibly with white space around them, [validateConfig] returns the
    comma-joined list of the trimmed elements; the list itself is unchanged:
    the resolved value splits into the trimmed elements, one for one. *)
Theorem validateConfig_trims_elements (c : option loc) (σ : gmap loc ConfigParams)
    (es : list string) :
  Forall (fun e => JsString.occurs "," e = false) es →
  JsString.join "," es ≠ "" →
  input_package c σ = Some (JsString.join "," es) →
  resolved_package c σ = Some (JsString.join "," (JsString.trim <$> es))
  ∧ JsString.split "," (JsString.join "," (JsString.trim <$> es))
    = JsString.trim <$> es.
Proof.
  intros Hes Hne Hin.
  assert (Hnil : es ≠ []) by (intros ->; by apply Hne).
  split.
  - destruct c as [l|]; [|done].
    unfold input_package in Hin. simpl in Hin.
    unfold resolved_package. rewrite validateConfig_Some, lookup_insert_eq. simpl.
    rewrite lookup_total_alt. destruct (σ !! l) as [o|]; simpl in *; [|done].
    rewrite Hin, or_else_nonempty by done.
    by rewrite (split_join "," es Hnil Hes).
  - apply (split_join "," (JsString.trim <$> es)).
    + by destruct es.
    + apply Forall_fmap. eapply Forall_impl; [exact Hes|].
      intros e He. by apply occurs_trim.
Qed.

Lemma validateConfig_trims_elements_witness :
  resolved_package (Some 1%positive)
    {[ 1%positive := mkConfig (Some " a , b ,c ") [] ]} = Some "a,b,c"
  ∧ JsString.split "," "a,b,c" = ["a"; "b"; "c"].
Proof.
  apply (validateConfig_trims_elements (Some 1%positive)
           {[ 1%positive := mkConfig (Some " a , b ,c ") [] ]}
           [" a "; " b "; "c "]).
  - repeat constructor.
  - discriminate.
  - reflexivity.
Defined.

(** Config resolution is idempotent wherever its result is not the empty
    package: resolving the configuration [validateConfig] returned gives that
    configuration again. *)
Lemma validateConfig_idempotent (c : option loc) (σ σ' : gmap loc ConfigParams)
    (l : loc) :
  validateConfig c σ = (l, σ') →
  resolved_package c σ ≠ Some "" →
  validateConfig (Some l) σ' = (l, σ').
Proof.
  intros Hc Hne. unfold resolved_package in Hne. rewrite Hc in Hne.
  assert (∃ p0 rest,
    σ' !! l = Some (mkConfig
                      (Some (JsString.join ","
                               (JsString.trim <$> JsString.split "," p0))) rest))
    as (p0 & rest & Hl).
  { destruct c as [l0|].
    - rewrite validateConfig_Some in Hc. injection Hc as <- <-.
      eexists _, _. by rewrite lookup_insert_eq.
    - rewrite validateConfig_None in Hc. injection Hc as <- <-.
      exists DEFAULT_PACKAGE, []. by rewrite lookup_insert_eq. }
  rewrite Hl in Hne. simpl in Hne.
  rewrite validateConfig_Some. f_equal.
  rewrite lookup_total_alt, Hl. cbn [default from_option id package others].
  rewrite or_else_nonempty by congruence.
  rewrite split_join.
  - rewrite <- list_fmap_compose.
    rewrite (list_fmap_ext (JsString.trim ∘ JsString.trim) JsString.trim)
      by (intros ? x _; apply trim_trim).
    by apply insert_id.
  - pose proof (split_not_nil "," p0). by destruct (JsString.split "," p0).
  - apply Forall_fmap. eapply Forall_impl; [apply split_elements_without_sep|].
    intros x Hx. by apply occurs_trim.
Qed.


(** C9: config resolution is not idempotent on a [package] that is not
    empty and holds white space only: the first resolution writes the empty
    string, and a second resolution of that result replaces it by the
    default package name. *)
Theorem validateConfig_white_space_not_idempotent (c : option loc)
    (σ : gmap loc ConfigParams) (p : string) :
  input_package c σ = Some p → p ≠ "" → JsString.trim p = "" →
  resolved_package c σ = Some ""
  ∧ resolved_package (Some (validateConfig c σ).1) (validateConfig c σ).2
    = Some DEFAULT_PACKAGE.
Proof.
  intros Hin Hne Htrim.
  pose proof (validateConfig_white_space_resolved c σ p Hin Hne Htrim) as Hfirst.
  split; [exact Hfirst|].
  unfold resolved_package in Hfirst.
  destruct (validateConfig c σ) as [l σ'] eqn:Hc. cbn [fst snd].
  apply validateConfig_default_empty. by right.
Qed.

Lemma validateConfig_white_space_not_idempotent_witness :
  resolved_package (Some 1%positive) {[ 1%positive := mkConfig (Some " ") [] ]}
  = Some ""
  ∧ resolved_package
      (Some (validateConfig (Some 1%positive)
               {[ 1%positive := mkConfig (Some " ") [] ]}).1)
      (validateConfig (Some 1%positive)
         {[ 1%positive := mkConfig (Some " ") [] ]}).2
    = Some DEFAULT_PACKAGE.
Proof.
  apply (validateConfig_white_space_not_idempotent (Some 1%positive)
           {[ 1%positive := mkConfig (Some " ") [] ]} " ").
  - reflexivity.
  - discriminate.
  - reflexivity.
Defined.

(** The same on two spaces, by computation. *)
Example validateConfig_white_space_twice :
  resolved_package (Some 1%positive)
    (validateConfig (Some 1%positive)
       {[ 1%positive := mkConfig (Some "  ") [] ]}).2
  = Some DEFAULT_PACKAGE.
Proof.
  unfold resolved_package.
  by rewrite !validateConfig_Some, lookup_insert_eq.
Qed.

(** ** The normalizer *)

Lemma deref_input_package (request : Request) (σ : gmap loc ConfigParams)
    (p : string) :
  input_package (configParams request) σ = Some p →
  ∃ o, deref request σ = Ok o ∧ package o = Some p.
Proof.
  unfold input_package, deref. destruct (configParams request) as [l|]; [|done].
  simpl. rewrite lookup_total_alt. destruct (σ !! l) as [o|]; [|done].
  simpl. intros Hp. by exists o.
Qed.

(** C3: [normalizeResponse] chooses between the two shapes by the number of
    entries of the comma-split package list of the request, whatever the
    parsed response is.  With more than one entry the parsed response is
    returned as it is.  With exactly one entry the parsed response becomes
    the value of the only key, that package name, unless the name is
    [__proto__]: the assignment then defines no key and the object returned
    has none. *)
Theorem normalizeResponse_by_package_count (parse : string → result value)
    (request : Request) (σ : gmap loc ConfigParams) (p text : string)
    (response : value) :
  input_package (configParams request) σ = Some p →
  parse text = Ok response →
  (length (JsString.split "," p) = 1%nat →
     ∃ packageName, JsString.split "," p = [packageName]
       ∧ normalizeResponse parse request σ text
         = Ok (if String.eqb packageName "__proto__" then VObj []
               else VObj [(packageName, response)]))
  ∧ ((1 < length (JsString.split "," p))%nat →
       normalizeResponse parse request σ text = Ok response).
Proof.
  intros (o & Ho & Hp)%deref_input_package Hparse.
  unfold normalizeResponse. rewrite Hparse, Ho. cbn [mbind result_bind].
  rewrite Hp. cbn [mbind result_bind].
  split.
  - intros Hlen. destruct (JsString.split "," p) as [|x [|y l]]; try done.
    by exists x.
  - intros Hlen.
    destruct (Nat.eqb_spec (length (JsString.split "," p)) 1) as [Heq|_]; [lia|done].
Qed.

Lemma normalizeResponse_by_package_count_witness :
  (length (JsString.split "," "__proto__") = 1%nat →
     ∃ packageName, JsString.split "," "__proto__" = [packageName]
       ∧ normalizeResponse (fun _ => Ok scenario_1_response)
           scenario_1_request
           {[ 1%positive := mkConfig (Some "__proto__") [] ]} "body"
         = Ok (if String.eqb packageName "__proto__" then VObj []
               else VObj [(packageName, scenario_1_response)]))
  ∧ ((1 < length (JsString.split "," "__proto__"))%nat →
       normalizeResponse (fun _ => Ok scenario_1_response)
         scenario_1_request
         {[ 1%positive := mkConfig (Some "__proto__") [] ]} "body"
       = Ok scenario_1_response).
Proof.
  apply (normalizeResponse_by_package_count (fun _ => Ok scenario_1_response)
           scenario_1_request
           {[ 1%positive := mkConfig (Some "__proto__") [] ]}
           "__proto__" "body" scenario_1_response); reflexivity.
Defined.

(** The package name [__proto__]: the object returned has no key. *)
Example normalizeResponse_proto :
  normalizeResponse (fun _ => Ok scenario_1_response) scenario_1_request
    {[ 1%positive := mkConfig (Some "__proto__") [] ]} "body"
  = Ok (VObj []).
Proof. reflexivity. Qed.

Example normalizeResponse_single :
  normalizeResponse (fun _ => Ok scenario_1_response)
    scenario_1_request scenario_1_store "body"
  = Ok (VObj [("left-pad", scenario_1_response)]).
Proof. reflexivity. Qed.

Example normalizeResponse_multi :
  normalizeResponse (fun _ => Ok (VObj [("a", VNull); ("b", VNull)]))
    scenario_1_request {[ 1%positive := mkConfig (Some "a,b") [] ]} "body"
  = Ok (VObj [("a", VNull); ("b", VNull)]).
Proof. reflexivity. Qed.

(** ** The entry point *)

(** [getData] after the config resolution: the outcome is decided by the
    [try] block. When the block throws, the handler throws the user error;
    when it completes, the [return] statement reads [data], which no scope
    in force there declares. *)
Lemma getData_unfold (fetch : string → result string)
    (parse : string → result value) (request : Request)
    (σ σ' : gmap loc ConfigParams) (l : loc) :
  validateConfig (configParams request) σ = (l, σ') →
  getData fetch parse request σ
  = (match getData_try fetch parse
             (mkRequest (Some l) (dateRange request) (fields request)) σ'
             (forIds (name <$> fields request) getFields) with
     | Throw e =>
         Throw (UserError
                  ("Error fetching data from API. Exception details: "
                     +:+ exn_to_string e)
                  unrecoverable_text)
     | Ok _ => Throw (ReferenceError "data is not defined")
     end,
     (mkRequest (Some l) (dateRange request) (fields request), σ')).
Proof.
  intros Hc. unfold getData. rewrite Hc. cbv beta iota zeta.
  cbn [fields dateRange].
  by destruct (getData_try _ _ _ _ _).
Qed.

(** Whatever the request and the upstream, [getData] does not return
    normally. *)
Lemma getData_throws (fetch : string → result string)
    (parse : string → result value) (request : Request)
    (σ : gmap loc ConfigParams) :
  ∃ e, (getData fetch parse request σ).1 = Throw e.
Proof.
  destruct (validateConfig (configParams request) σ) as [l σ'] eqn:Hc.
  rewrite (getData_unfold _ _ _ _ _ _ Hc). simpl.
  destruct (getData_try _ _ _ _ _); eauto.
Qed.

(** C2: when the fetch fails, or the text it returns is not valid JSON,
    [getData] throws the user error built by its handler, a single
    exception carrying the fixed message; it returns no result, hence no
    rows. *)
Theorem getData_upstream_failure (fetch : string → result string)
    (parse : string → result value) (request : Request)
    (σ : gmap loc ConfigParams) (e : exn) :
  upstream_fails fetch parse (resolved_url request σ) e →
  (getData fetch parse request σ).1
  = Throw (UserError
             ("Error fetching data from API. Exception details: "
                +:+ exn_to_string e)
             unrecoverable_text).
Proof.
  unfold resolved_url.
  destruct (validateConfig (configParams request) σ) as [l σ'] eqn:Hc.
  intros Hfail. rewrite (getData_unfold _ _ _ _ _ _ Hc).
  cbn [fst]. unfold getData_try, fetchDataFromApi, deref.
  cbn [configParams dateRange mbind result_bind].
  destruct Hfail as [Hfetch | (text & Hfetch & Hparse)]; rewrite Hfetch.
  - done.
  - cbn [mbind result_bind]. unfold normalizeResponse. by rewrite Hparse.
Qed.

Lemma getData_upstream_failure_witness :
  (getData (fun _ => Ok "<html>") (fun _ => Throw (SyntaxError "Unexpected token <"))
     scenario_1_request scenario_1_store).1
  = Throw (UserError
             "Error fetching data from API. Exception details: SyntaxError: Unexpected token <"
             unrecoverable_text).
Proof.
  apply (getData_upstream_failure (fun _ => Ok "<html>")
           (fun _ => Throw (SyntaxError "Unexpected token <"))
           scenario_1_request scenario_1_store
           (SyntaxError "Unexpected token <")).
  right. exists "<html>". split; reflexivity.
Defined.

(** C1: in scenario 1 the [try] block of [getData] computes the two rows
    and binds them to [data], a declaration local to the block; the [return]
    statement after the block then fails to resolve [data], and [getData]
    throws a ReferenceError where a result with these rows is stated. *)
Theorem getData_scenario_1 (fetch : string → result string)
    (parse : string → result value) (text : string) :
  fetch scenario_1_url = Ok text →
  parse text = Ok scenario_1_response →
  getData_try fetch parse scenario_1_request scenario_1_store
    (forIds (name <$> fields scenario_1_request) getFields)
  = Ok [ ("apiResponse", BString text);
         ("normalizedResponse", BValue (VObj [("left-pad", scenario_1_response)]));
         ("data", BRows scenario_1_rows) ]
  ∧ (getData fetch parse scenario_1_request scenario_1_store).1
    = Throw (ReferenceError "data is not defined").
Proof.
  intros Hfetch Hparse.
  assert (Htry : getData_try fetch parse scenario_1_request scenario_1_store
            (forIds (name <$> fields scenario_1_request) getFields)
          = Ok [ ("apiResponse", BString text);
                 ("normalizedResponse",
                  BValue (VObj [("left-pad", scenario_1_response)]));
                 ("data", BRows scenario_1_rows) ]).
  { unfold getData_try, fetchDataFromApi.
    change (deref scenario_1_request scenario_1_store)
      with (Ok (mkConfig (Some "left-pad") [])).
    cbn [mbind result_bind].
    change (api_url _ _) with scenario_1_url.
    rewrite Hfetch. cbn [mbind result_bind].
    unfold normalizeResponse. rewrite Hparse. reflexivity. }
  split; [exact Htry|].
  assert (Hc : validateConfig (configParams scenario_1_request) scenario_1_store
               = (1%positive, scenario_1_store)) by reflexivity.
  rewrite (getData_unfold _ _ _ _ _ _ Hc).
  change (mkRequest (Some 1%positive) (dateRange scenario_1_request)
            (fields scenario_1_request)) with scenario_1_request.
  by rewrite Htry.
Qed.

Lemma getData_scenario_1_witness :
  getData_try (fun _ => Ok "body") (fun _ => Ok scenario_1_response)
    scenario_1_request scenario_1_store
    (forIds (name <$> fields scenario_1_request) getFields)
  = Ok [ ("apiResponse", BString "body");
         ("normalizedResponse", BValue (VObj [("left-pad", scenario_1_response)]));
         ("data", BRows scenario_1_rows) ]
  ∧ (getData (fun _ => Ok "body") (fun _ => Ok scenario_1_response)
       scenario_1_request scenario_1_store).1
    = Throw (ReferenceError "data is not defined").
Proof.
  apply (getData_scenario_1 (fun _ => Ok "body")
           (fun _ => Ok scenario_1_response) "body"); reflexivity.
Defined.

(** ** Effects on the caller's objects *)

(** [validateConfig] writes into the object it is given: the caller's
    configuration is not what it was before the call. *)
Lemma validateConfig_writes_input :
  (validateConfig (Some 1%positive)
     {[ 1%positive := mkConfig (Some " a , b ,c ") [] ]}).2 !! 1%positive
  = Some (mkConfig (Some "a,b,c") [])
  ∧ (validateConfig (Some 1%positive)
       {[ 1%positive := mkConfig (Some " a , b ,c ") [] ]}).2
    ≠ {[ 1%positive := mkConfig (Some " a , b ,c ") [] ]}.
Proof.
  rewrite validateConfig_Some. cbn [snd].
  split; [by rewrite lookup_insert_eq|].
  intros Heq. apply (f_equal (fun m => m !! 1%positive)) in Heq.
  rewrite lookup_insert_eq, lookup_singleton_eq in Heq. discriminate.
Qed.

(** C10: the components keep no state of their own; the effects of a call
    on the caller's objects are these.  [validateConfig] returns the object
    it was given, or a new object when it was given none; it writes the
    resolved [package] into that object, keeps the object's other
    properties, and changes no other object.  [getData] does this to
    [request.configParams], stores the reference in the request, and changes
    nothing else, whatever the upstream answers. *)
Theorem config_resolution_effect (fetch : string → result string)
    (parse : string → result value) (request : Request)
    (σ : gmap loc ConfigParams) :
  ∃ l σ', validateConfig (configParams request) σ = (l, σ')
    ∧ (∀ l0, configParams request = Some l0 → l = l0)
    ∧ (configParams request = None → σ !! l = None)
    ∧ (∃ p, σ' !! l = Some (mkConfig (Some p) (others (σ !!! l))))
    ∧ (∀ l', l' ≠ l → σ' !! l' = σ !! l')
    ∧ (getData fetch parse request σ).2
      = (mkRequest (Some l) (dateRange request) (fields request), σ').
Proof.
  destruct (validateConfig (configParams request) σ) as [l σ'] eqn:Hc.
  exists l, σ'. split; [done|].
  rewrite (getData_unfold _ _ _ _ _ _ Hc). cbn [snd].
  destruct (configParams request) as [l0|].
  - rewrite validateConfig_Some in Hc. injection Hc as <- <-.
    repeat split; [congruence|done| |].
    + eexists. by rewrite lookup_insert_eq.
    + intros l' Hl'. by rewrite lookup_insert_ne.
  - rewrite validateConfig_None in Hc. injection Hc as <- <-.
    assert (Hfresh : σ !! fresh (dom σ) = None)
      by (apply not_elem_of_dom, is_fresh).
    repeat split; [done|done| |].
    + exists DEFAULT_PACKAGE.
      by rewrite lookup_insert_eq, lookup_total_alt, Hfresh.
    + intros l' Hl'. by rewrite lookup_insert_ne.
Qed.

(** ** Further properties of the config resolver *)

(** Joining the elements of a split string gives the string back. *)
Lemma join_split (sep : ascii) (s : string) :
  JsString.join (String sep "") (JsString.split sep s) = s.
Proof.
  induction s as [|c s IH]; [done|].
  cbn [JsString.split]. pose proof (split_not_nil sep s) as Hnil.
  destruct (Ascii.eqb_spec c sep) as [->|_].
  - destruct (JsString.split sep s) as [|x xs]; [done|].
    change (JsString.join (String sep "") ("" :: x :: xs))
      with (String sep (JsString.join (String sep "") (x :: xs))).
    by rewrite IH.
  - destruct (JsString.split sep s) as [|x xs]; [done|].
    rewrite <- IH. by destruct xs.
Qed.

(** What [validateConfig] leaves in the object it returns: the comma-join
    of the trimmed elements of some string. *)
Lemma validateConfig_result (c : option loc) (σ σ' : gmap loc ConfigParams)
    (l : loc) :
  validateConfig c σ = (l, σ') →
  ∃ q rest,
    σ' !! l = Some (mkConfig
                      (Some (JsString.join ","
                               (JsString.trim <$> JsString.split "," q))) rest).
Proof.
  intros Hc. destruct c as [l0|].
  - rewrite validateConfig_Some in Hc. injection Hc as <- <-.
    eexists _, _. by rewrite lookup_insert_eq.
  - rewrite validateConfig_None in Hc. injection Hc as <- <-.
    exists DEFAULT_PACKAGE, []. by rewrite lookup_insert_eq.
Qed.

Lemma split_trimmed_join (q : string) :
  JsString.split "," (JsString.join "," (JsString.trim <$> JsString.split "," q))
  = JsString.trim <$> JsString.split "," q.
Proof.
  apply (split_join ",").
  - pose proof (split_not_nil "," q). by destruct (JsString.split "," q).
  - apply Forall_fmap. eapply Forall_impl; [apply split_elements_without_sep|].
    intros x Hx. by apply occurs_trim.
Qed.

(** X1: for every input the configuration [validateConfig] returns has a
    [package], and each comma-separated element of it is trimmed: no element
    begins or ends with white space. *)
Theorem validateConfig_elements_trimmed (c : option loc)
    (σ : gmap loc ConfigParams) :
  ∃ p, resolved_package c σ = Some p
    ∧ Forall (fun x => JsString.trim x = x ∧ JsString.occurs "," x = false)
        (JsString.split "," p).
Proof.
  unfold resolved_package.
  destruct (validateConfig c σ) as [l σ'] eqn:Hc.
  destruct (validateConfig_result _ _ _ _ Hc) as (q & rest & Hl).
  rewrite Hl. eexists. split; [done|].
  rewrite split_trimmed_join. apply Forall_fmap.
  eapply Forall_impl; [apply (split_elements_without_sep "," q)|].
  intros x Hx. split; [apply trim_trim|by apply occurs_trim].
Qed.

(** X2: resolving twice is resolving once, for every configuration whose
    resolved [package] is not the empty string: [validateConfig] applied to
    its own result returns that result, object and store. *)
Theorem validateConfig_twice (c : option loc) (σ : gmap loc ConfigParams) :
  resolved_package c σ ≠ Some "" →
  validateConfig (Some (validateConfig c σ).1) (validateConfig c σ).2
  = validateConfig c σ.
Proof.
  intros Hne. destruct (validateConfig c σ) as [l σ'] eqn:Hc.
  cbn [fst snd]. by apply (validateConfig_idempotent c σ).
Qed.

Lemma validateConfig_twice_witness :
  validateConfig
    (Some (validateConfig (Some 1%positive)
             {[ 1%positive := mkConfig (Some " a , b ,c ") [] ]}).1)
    (validateConfig (Some 1%positive)
       {[ 1%positive := mkConfig (Some " a , b ,c ") [] ]}).2
  = validateConfig (Some 1%positive)
      {[ 1%positive := mkConfig (Some " a , b ,c ") [] ]}.
Proof.
  apply (validateConfig_twice (Some 1%positive)
           {[ 1%positive := mkConfig (Some " a , b ,c ") [] ]}).
  unfold resolved_package. rewrite validateConfig_Some, lookup_insert_eq.
  discriminate.
Defined.

(** X3: a [package] that is not empty but consists of white space only is
    not replaced by the default: it resolves to the empty string. *)
Theorem validateConfig_white_space (c : option loc) (σ : gmap loc ConfigParams)
    (p : string) :
  input_package c σ = Some p → p ≠ "" → JsString.trim p = "" →
  resolved_package c σ = Some "".
Proof.
  intros Hin Hne Htrim. destruct c as [l|]; [|done].
  unfold input_package in Hin. cbn [mbind option_bind] in Hin.
  unfold resolved_package. rewrite validateConfig_Some, lookup_insert_eq.
  cbn [mbind option_bind package]. rewrite lookup_total_alt.
  destruct (σ !! l) as [o|]; [|done]. cbn [mbind option_bind] in Hin.
  cbn [default from_option id]. rewrite Hin, or_else_nonempty by done.
  rewrite (split_without_sep "," p (trim_empty_no_comma p Htrim)).
  cbn [fmap list_fmap JsString.join]. by rewrite Htrim.
Qed.

Lemma validateConfig_white_space_witness :
  resolved_package (Some 1%positive)
    {[ 1%positive := mkConfig (Some (String "009" " ")) [] ]} = Some "".
Proof.
  apply (validateConfig_white_space (Some 1%positive)
           {[ 1%positive := mkConfig (Some (String "009" " ")) [] ]}
           (String "009" " ")).
  - reflexivity.
  - discriminate.
  - reflexivity.
Defined.

(** X4: [validateConfig] changes nothing when the [package] of its object is
    not empty and none of its comma-separated elements begins or ends with
    white space; empty elements, as in a trailing comma, are kept. *)
Theorem validateConfig_trimmed_unchanged (l : loc) (σ : gmap loc ConfigParams)
    (o : ConfigParams) (p : string) :
  σ !! l = Some o → package o = Some p → p ≠ "" →
  Forall (fun x => JsString.trim x = x) (JsString.split "," p) →
  validateConfig (Some l) σ = (l, σ).
Proof.
  intros Hl Hp Hne Htrim.
  rewrite validateConfig_Some. f_equal.
  rewrite lookup_total_alt, Hl. cbn [default from_option id].
  rewrite Hp, or_else_nonempty by done.
  rewrite (fmap_trim_id _ Htrim), (join_split "," p).
  apply insert_id. rewrite Hl. f_equal. destruct o; simpl in *. by subst.
Qed.

Lemma validateConfig_trimmed_unchanged_witness :
  validateConfig (Some 1%positive) {[ 1%positive := mkConfig (Some "a,,b c,") [] ]}
  = (1%positive, {[ 1%positive := mkConfig (Some "a,,b c,") [] ]}).
Proof.
  apply (validateConfig_trimmed_unchanged 1%positive
           {[ 1%positive := mkConfig (Some "a,,b c,") [] ]}
           (mkConfig (Some "a,,b c,") []) "a,,b c,").
  - reflexivity.
  - reflexivity.
  - discriminate.
  - repeat constructor.
Defined.

(** ** Further properties of the normalizer *)

Lemma split_with_sep (sep : ascii) (s : string) :
  JsString.occurs sep s = true → (2 ≤ length (JsString.split sep s))%nat.
Proof.
  induction s as [|c s IH]; simpl; [discriminate|].
  destruct (Ascii.eqb c sep) eqn:Hc; simpl.
  - intros _. pose proof (split_not_nil sep s).
    destruct (JsString.split sep s); [done|simpl; lia].
  - intros Hs. specialize (IH Hs).
    destruct (JsString.split sep s); simpl in *; lia.
Qed.

(** The branch of [normalizeResponse], by the commas of the [package]
    string. *)
Lemma normalizeResponse_occurs (parse : string → result value)
    (request : Request) (σ : gmap loc ConfigParams) (p text : string)
    (response : value) :
  input_package (configParams request) σ = Some p →
  parse text = Ok response →
  normalizeResponse parse request σ text
  = Ok (if JsString.occurs "," p then response else assign_new_object p response).
Proof.
  intros (o & Ho & Hp)%deref_input_package Hparse.
  unfold normalizeResponse. rewrite Hparse, Ho. cbn [mbind result_bind].
  rewrite Hp. cbn [mbind result_bind].
  destruct (JsString.occurs "," p) eqn:Hcomma.
  - apply split_with_sep in Hcomma.
    destruct (Nat.eqb_spec (length (JsString.split "," p)) 1) as [Heq|_]; [lia|done].
  - by rewrite (split_without_sep "," p Hcomma).
Qed.

(** X5: [normalizeResponse] returns the parsed response as it is when the
    [package] string holds a comma, a trailing one included.  When the
    string holds no comma it wraps the parsed response under the whole
    string as the only key, unless the string is [__proto__]: the object
    returned then has no key. *)
Theorem normalizeResponse_by_comma (parse : string → result value)
    (request : Request) (σ : gmap loc ConfigParams) (p text : string)
    (response : value) :
  input_package (configParams request) σ = Some p →
  parse text = Ok response →
  normalizeResponse parse request σ text
  = Ok (if JsString.occurs "," p then response
        else if String.eqb p "__proto__" then VObj []
        else VObj [(p, response)]).
Proof. apply normalizeResponse_occurs. Qed.

Lemma normalizeResponse_by_comma_witness :
  normalizeResponse (fun _ => Ok scenario_1_response) scenario_1_request
    {[ 1%positive := mkConfig (Some "left-pad,") [] ]} "body"
  = Ok scenario_1_response.
Proof.
  apply (normalizeResponse_by_comma (fun _ => Ok scenario_1_response)
           scenario_1_request
           {[ 1%positive := mkConfig (Some "left-pad,") [] ]}
           "left-pad," "body" scenario_1_response); reflexivity.
Defined.

(** ** Further properties of the row formatter *)

(** No array index is written with the letter d. *)
Lemma occurs_d_pretty_N_go (x : N) (s : string) :
  JsString.occurs "d" s = false → JsString.occurs "d" (pretty_N_go x s) = false.
Proof.
  revert s. induction (N.lt_wf_0 x) as [x _ IH]; intros s Hs.
  assert (x = 0 ∨ 0 < x)%N as [->|Hx] by lia.
  - by rewrite pretty_N_go_0.
  - rewrite pretty_N_go_step by done. apply IH.
    + by apply N.div_lt.
    + cbn [JsString.occurs]. rewrite Hs, orb_false_r.
      unfold pretty_N_char. by repeat case_match.
Qed.

Lemma occurs_d_pretty (i : nat) : JsString.occurs "d" (pretty i) = false.
Proof.
  unfold pretty, pretty_nat, pretty, pretty_N.
  case_decide; [done|]. by apply occurs_d_pretty_N_go.
Qed.

Lemma array_index_downloads (n : nat) : array_index "downloads" n = None.
Proof.
  unfold array_index.
  rewrite (proj2 (list_find_None _ _)); [done|].
  apply Forall_forall. intros i _ Hi.
  pose proof (occurs_d_pretty i) as Hd. by rewrite Hi in Hd.
Qed.

(** Reading [downloads] from a string or an array gives [undefined]. *)
Lemma get_downloads_undefined (v : value) :
  (∃ s, v = VStr s) ∨ (∃ elems, v = VArr elems) →
  get v "downloads" = Ok VUndefined.
Proof.
  intros [[s ->] | [elems ->]]; cbn [get].
  - change (String.eqb "downloads" "length") with false. cbn iota.
    by rewrite array_index_downloads.
  - change (String.eqb "downloads" "length") with false. cbn iota.
    by rewrite array_index_downloads.
Qed.

Lemma assoc_elem_of {A : Type} (k : string) (a : A) (props : list (string * A)) :
  assoc k props = Some a → k ∈ props.*1.
Proof.
  induction props as [|[k' a'] props IH]; [done|].
  cbn [assoc]. rewrite fmap_cons. cbn [fst].
  destruct (String.eqb_spec k k') as [->|_]; [intros _; by left|].
  intros H. right. by apply IH.
Qed.

(** A loop throws as soon as one of its elements throws whatever the
    accumulator is. *)
Lemma foldM_throws {A B : Type} (F : B → A → result B) (x : A) (l : list A) :
  x ∈ l → (∀ acc, ∃ e, F acc x = Throw e) →
  ∀ acc, ∃ e, foldM F acc l = Throw e.
Proof.
  intros Hx HF. induction l as [|y l IH]; intros acc.
  - by apply elem_of_nil in Hx.
  - cbn [foldM]. destruct (F acc y) as [acc'|e] eqn:Hy.
    + cbn [mbind result_bind]. apply elem_of_cons in Hx as [->|Hx].
      * destruct (HF acc) as [e He]. congruence.
      * by apply IH.
    + by exists e.
Qed.

(** X6: when one package of the response is [null], or an object without
    [downloads], [getFormattedData] throws: it returns no rows, those of the other
    packages included. *)
Theorem getFormattedData_bad_package (fs : list Field)
    (props : list (string * value)) (k : string) (v : value) :
  assoc k props = Some v →
  v = VNull ∨ (∃ props', v = VObj props' ∧ assoc "downloads" props' = None) →
  ∃ e, getFormattedData (VObj props) fs = Throw e.
Proof.
  intros Hk Hv. unfold getFormattedData. cbn [Object_keys mbind result_bind].
  apply (foldM_throws _ k); [by eapply assoc_elem_of|].
  intros acc.
  change (get (VObj props) k) with (Ok (default VUndefined (assoc k props))).
  rewrite Hk. cbn [default from_option id mbind result_bind].
  destruct Hv as [-> | (props' & -> & Hd)].
  - by eexists.
  - cbn [get]. rewrite Hd. by eexists.
Qed.

Lemma getFormattedData_bad_package_witness :
  ∃ e, getFormattedData
         (VObj [("a", of_package [mkDaily "2023-01-01" 5]); ("b", VNull)])
         getFields = Throw e.
Proof.
  apply (getFormattedData_bad_package getFields
           [("a", of_package [mkDaily "2023-01-01" 5]); ("b", VNull)]
           "b" VNull).
  - reflexivity.
  - by left.
Defined.

(** X7: [getFormattedData] needs the normalized shape.  On a response whose
    first property is a string or an array, as those of the single-package
    answer are, it throws a TypeError before any row is made: the property
    is taken for a package and has no [downloads]. *)
Theorem getFormattedData_single_shape (fs : list Field) (k : string) (v : value)
    (rest : list (string * value)) :
  (∃ s, v = VStr s) ∨ (∃ elems, v = VArr elems) →
  ∃ msg, getFormattedData (VObj ((k, v) :: rest)) fs = Throw (TypeError msg).
Proof.
  intros Hv. eexists. unfold getFormattedData. cbn [Object_keys mbind result_bind].
  rewrite fmap_cons. cbn [fst foldM].
  change (get (VObj ((k, v) :: rest)) k)
    with (Ok (default VUndefined (assoc k ((k, v) :: rest)))).
  cbn [assoc]. rewrite String.eqb_refl.
  cbn [default from_option id mbind result_bind].
  by rewrite (get_downloads_undefined v Hv).
Qed.

Lemma getFormattedData_single_shape_witness :
  ∃ msg, getFormattedData
    (VObj [ ("start", VStr "2023-01-01"); ("end", VStr "2023-01-02");
            ("package", VStr "left-pad");
            ("downloads", VArr [of_daily (mkDaily "2023-01-01" 10)]) ])
    getFields
  = Throw (TypeError msg).
Proof.
  apply (getFormattedData_single_shape getFields "start" (VStr "2023-01-01")).
  left. by eexists.
Defined.

(** [formatData] on an object whose [day] is a string. *)
Lemma formatData_object (fs : list Field) (packageName s : string)
    (props : list (string * value)) :
  assoc "day" props = Some (VStr s) →
  formatData fs packageName (VObj props)
  = Ok (mkRow ((fun f =>
                  if String.eqb (getId f) "day" then
                    VStr (JsString.replace_all "-" "" s)
                  else if String.eqb (getId f) "downloads" then
                    default VUndefined (assoc "downloads" props)
                  else if String.eqb (getId f) "packageName" then VStr packageName
                  else VStr "") <$> fs)).
Proof.
  intros Hday. unfold formatData.
  erewrite mapM_Ok; [done|].
  intros f _. cbn beta.
  destruct (String.eqb (getId f) "day").
  - cbn [get]. by rewrite Hday.
  - by destruct (String.eqb (getId f) "downloads");
      destruct (String.eqb (getId f) "packageName").
Qed.

(** X8: a daily entry without [downloads] is not an error: the row holds
    [undefined] at the position of the [downloads] field. *)
Theorem formatData_downloads_missing (fs : list Field) (i : nat) (f : Field)
    (packageName s : string) (props : list (string * value)) :
  assoc "day" props = Some (VStr s) → assoc "downloads" props = None →
  fs !! i = Some f → getId f = "downloads" →
  ∃ row, formatData fs packageName (VObj props) = Ok row
    ∧ values row !! i = Some VUndefined.
Proof.
  intros Hday Hdl Hf Hid. eexists. split; [by apply formatData_object|].
  cbn [values]. rewrite list_lookup_fmap, Hf. cbn [fmap option_fmap option_map].
  by rewrite Hid, Hdl.
Qed.

Lemma formatData_downloads_missing_witness :
  ∃ row, formatData getFields "left-pad" (VObj [("day", VStr "2023-01-05")]) = Ok row
    ∧ values row !! 2%nat = Some VUndefined.
Proof.
  apply (formatData_downloads_missing getFields 2
           (mkField Metric "downloads" "Downloads" NUMBER (Some SUM))
           "left-pad" "2023-01-05" [("day", VStr "2023-01-05")]); reflexivity.
Defined.

(** X9: a daily entry without [day] is an error as soon as the [day] field
    is requested: [formatData] throws a TypeError, whatever else is
    requested. *)
Theorem formatData_day_missing (fs : list Field) (f : Field)
    (packageName : string) (props : list (string * value)) :
  f ∈ fs → getId f = "day" → assoc "day" props = None →
  ∃ msg, formatData fs packageName (VObj props) = Throw (TypeError msg).
Proof.
  intros Hf Hid Hday. eexists. unfold formatData.
  match goal with |- mapM ?g fs ≫= _ = _ =>
    assert (Hm : mapM g fs = Throw (TypeError "Cannot read properties of undefined"));
      [|by rewrite Hm]
  end.
  induction fs as [|x fs IH]; [by apply elem_of_nil in Hf|].
  cbn [mapM]. destruct (String.eqb_spec (getId x) "day") as [Hx|Hx].
  - cbn [get]. by rewrite Hday.
  - apply elem_of_cons in Hf as [->|Hf]; [done|].
    rewrite (IH Hf).
    by destruct (String.eqb (getId x) "downloads");
      destruct (String.eqb (getId x) "packageName").
Qed.

Lemma formatData_day_missing_witness :
  ∃ msg, formatData getFields "left-pad" (VObj [("downloads", VNum 3)])
         = Throw (TypeError msg).
Proof.
  apply (formatData_day_missing getFields
           (mkField Dimension "day" "Date" YEAR_MONTH_DAY None)
           "left-pad" [("downloads", VNum 3)]).
  - right. left.
  - reflexivity.
  - reflexivity.
Defined.

(** X10: [formatData] reads the daily entry for the [day] and [downloads]
    fields only: when neither is requested it returns its row for any entry,
    [null] and [undefined] included. *)
Theorem formatData_entry_unread (fs : list Field) (packageName : string)
    (dailyDownload : value) :
  Forall (fun f => getId f ≠ "day" ∧ getId f ≠ "downloads") fs →
  formatData fs packageName dailyDownload
  = Ok (mkRow ((fun f => if String.eqb (getId f) "packageName"
                         then VStr packageName else VStr "") <$> fs)).
Proof.
  intros Hfs. unfold formatData.
  erewrite mapM_Ok; [done|].
  intros f Hf. cbn beta.
  apply (proj1 (Forall_forall _ _) Hfs) in Hf as [Hday Hdl].
  destruct (String.eqb_spec (getId f) "day") as [|_]; [done|].
  destruct (String.eqb_spec (getId f) "downloads") as [|_]; [done|].
  by destruct (String.eqb (getId f) "packageName").
Qed.

Lemma formatData_entry_unread_witness :
  formatData (forIds ["packageName"] getFields) "left-pad" VNull
  = Ok (mkRow [VStr "left-pad"]).
Proof.
  apply (formatData_entry_unread (forIds ["packageName"] getFields)
           "left-pad" VNull).
  repeat constructor; discriminate.
Defined.

(** ** Further properties of the entry point *)

Lemma getFormattedData_of_normalized (fs : list Field) (r : NormalizedResponse) :
  NoDup r.*1 →
  getFormattedData (of_normalized r) fs = Ok (output_row fs <$> observations r).
Proof.
  intros Hnd. unfold getFormattedData, of_normalized.
  cbn [Object_keys mbind result_bind].
  replace (fst <$> (prod_map id of_package <$> r)) with (r.*1)
    by (rewrite <- list_fmap_compose; by apply list_fmap_ext; intros ? []).
  rewrite (foldM_append _ fst (fun pd => output_row fs ∘ pair pd.1 <$> pd.2)).
  - by rewrite app_nil_l, output_rows_observations.
  - intros data [p days] Hin. apply getFormattedData_step.
    by apply assoc_fmap_NoDup.
Qed.

Lemma assign_new_object_key (k : string) (v : value) :
  k ≠ "__proto__" → assign_new_object k v = VObj [(k, v)].
Proof.
  intros Hk. unfold assign_new_object.
  by destruct (String.eqb_spec k "__proto__").
Qed.

(** The [try] block once the upstream has answered and the answer has
    parsed: what is left is the formatting of the normalized response. *)
Lemma getData_try_fetched (fetch : string → result string)
    (parse : string → result value) (request : Request)
    (σ σ' : gmap loc ConfigParams) (l : loc) (p text : string) (v : value)
    (fs : list Field) :
  validateConfig (configParams request) σ = (l, σ') →
  resolved_package (configParams request) σ = Some p →
  fetch (resolved_url request σ) = Ok text →
  parse text = Ok v →
  getData_try fetch parse
    (mkRequest (Some l) (dateRange request) (fields request)) σ' fs
  = (data ← getFormattedData
              (if JsString.occurs "," p then v else assign_new_object p v) fs;
     Ok [ ("apiResponse", BString text);
          ("normalizedResponse",
           BValue (if JsString.occurs "," p then v else assign_new_object p v));
          ("data", BRows data) ]).
Proof.
  intros Hc Hp Hfetch Hparse.
  unfold resolved_package in Hp. unfold resolved_url in Hfetch.
  rewrite Hc in Hp, Hfetch.
  unfold getData_try, fetchDataFromApi, deref.
  cbn [configParams dateRange mbind result_bind].
  rewrite Hfetch. cbn [mbind result_bind].
  rewrite (normalizeResponse_occurs parse
             (mkRequest (Some l) (dateRange request) (fields request))
             σ' p text v Hp Hparse).
  by destruct (JsString.occurs "," p).
Qed.

(** X11: [getData] never returns a result.  Whatever the request, the store
    and the upstream, it throws: either the ReferenceError of the unresolved
    [data], or the user error of its handler with the fixed text. *)
Theorem getData_outcomes (fetch : string → result string)
    (parse : string → result value) (request : Request)
    (σ : gmap loc ConfigParams) :
  (getData fetch parse request σ).1 = Throw (ReferenceError "data is not defined")
  ∨ ∃ e, (getData fetch parse request σ).1
         = Throw (UserError
                    ("Error fetching data from API. Exception details: "
                       +:+ exn_to_string e)
                    unrecoverable_text).
Proof.
  destruct (validateConfig (configParams request) σ) as [l σ'] eqn:Hc.
  rewrite (getData_unfold _ _ _ _ _ _ Hc). cbn [fst].
  destruct (getData_try _ _ _ _ _) as [scope|e]; [by left|right; by exists e].
Qed.

(** X12: when the upstream answers with well-formed data, the single-package
    shape for a [package] without comma and other than [__proto__], or the
    mapping by package name for a [package] with commas, the [try] block of
    [getData] binds [data] to the rows of all (package, day) observations,
    in order; [getData] then throws the ReferenceError and the rows are
    lost. *)
Theorem getData_well_formed_upstream (fetch : string → result string)
    (parse : string → result value) (request : Request)
    (σ : gmap loc ConfigParams) (p text : string) (r : NormalizedResponse) :
  resolved_package (configParams request) σ = Some p →
  fetch (resolved_url request σ) = Ok text →
  NoDup r.*1 →
  (JsString.occurs "," p = false ∧ p ≠ "__proto__"
     ∧ ∃ days, r = [(p, days)] ∧ parse text = Ok (of_package days))
  ∨ (JsString.occurs "," p = true ∧ parse text = Ok (of_normalized r)) →
  (∃ l σ' scope,
      validateConfig (configParams request) σ = (l, σ')
      ∧ getData_try fetch parse
          (mkRequest (Some l) (dateRange request) (fields request)) σ'
          (forIds (name <$> fields request) getFields) = Ok scope
      ∧ assoc "data" scope
        = Some (BRows (output_row (forIds (name <$> fields request) getFields)
                         <$> observations r)))
  ∧ (getData fetch parse request σ).1
    = Throw (ReferenceError "data is not defined").
Proof.
  intros Hp Hfetch Hnd Hshape.
  destruct (validateConfig (configParams request) σ) as [l σ'] eqn:Hc.
  assert (Htry : ∃ scope,
    getData_try fetch parse
      (mkRequest (Some l) (dateRange request) (fields request)) σ'
      (forIds (name <$> fields request) getFields) = Ok scope
    ∧ assoc "data" scope
      = Some (BRows (output_row (forIds (name <$> fields request) getFields)
                       <$> observations r))).
  { destruct Hshape as [(Hcomma & Hproto & days & -> & Hparse) | (Hcomma & Hparse)];
      rewrite (getData_try_fetched _ _ _ _ _ _ _ _ _ _ Hc Hp Hfetch Hparse),
        Hcomma.
    - rewrite (assign_new_object_key _ _ Hproto).
      change (VObj [(p, of_package days)]) with (of_normalized [(p, days)]).
      rewrite (getFormattedData_of_normalized _ _ Hnd). by eexists.
    - rewrite (getFormattedData_of_normalized _ _ Hnd). by eexists. }
  destruct Htry as (scope & Htry & Hdata).
  split; [by exists l, σ', scope|].
  rewrite (getData_unfold _ _ _ _ _ _ Hc). cbn [fst]. by rewrite Htry.
Qed.

Lemma getData_well_formed_upstream_witness :
  (∃ l σ' scope,
      validateConfig (Some 1%positive) {[ 1%positive := mkConfig (Some "a,b") [] ]}
      = (l, σ')
      ∧ getData_try (fun _ => Ok "body")
          (fun _ => Ok (of_normalized [("a", [mkDaily "2023-01-01" 5]);
                                       ("b", [mkDaily "2023-01-01" 7])]))
          (mkRequest (Some l) (mkDateRange "2023-01-01" "2023-01-01")
             [mkRequestField "packageName"; mkRequestField "downloads"]) σ'
          (forIds ["packageName"; "downloads"] getFields) = Ok scope
      ∧ assoc "data" scope
        = Some (BRows (output_row (forIds ["packageName"; "downloads"] getFields)
                         <$> observations [("a", [mkDaily "2023-01-01" 5]);
                                           ("b", [mkDaily "2023-01-01" 7])])))
  ∧ (getData (fun _ => Ok "body")
       (fun _ => Ok (of_normalized [("a", [mkDaily "2023-01-01" 5]);
                                    ("b", [mkDaily "2023-01-01" 7])]))
       (mkRequest (Some 1%positive) (mkDateRange "2023-01-01" "2023-01-01")
          [mkRequestField "packageName"; mkRequestField "downloads"])
       {[ 1%positive := mkConfig (Some "a,b") [] ]}).1
    = Throw (ReferenceError "data is not defined").
Proof.
  apply (getData_well_formed_upstream (fun _ => Ok "body")
           (fun _ => Ok (of_normalized [("a", [mkDaily "2023-01-01" 5]);
                                        ("b", [mkDaily "2023-01-01" 7])]))
           (mkRequest (Some 1%positive) (mkDateRange "2023-01-01" "2023-01-01")
              [mkRequestField "packageName"; mkRequestField "downloads"])
           {[ 1%positive := mkConfig (Some "a,b") [] ]}
           "a,b" "body"
           [("a", [mkDaily "2023-01-01" 5]); ("b", [mkDaily "2023-01-01" 7])]).
  - reflexivity.
  - reflexivity.
  - compute_done.
  - right. split; reflexivity.
Defined.

(** The rows of end-to-end scenario 2, as the [try] block computes them. *)
Example scenario_2_rows :
  output_row (forIds ["packageName"; "downloads"] getFields)
    <$> observations [("a", [mkDaily "2023-01-01" 5]);
                      ("b", [mkDaily "2023-01-01" 7])]
  = [mkRow [VStr "a"; VNum 5]; mkRow [VStr "b"; VNum 7]].
Proof. reflexivity. Qed.

(** X13: when the upstream answers a request for a single package, named
    other than [__proto__], with an object that has no [downloads], an error
    payload for instance, the formatter's TypeError is caught and [getData]
    throws the user error. *)
Theorem getData_unexpected_shape (fetch : string → result string)
    (parse : string → result value) (request : Request)
    (σ : gmap loc ConfigParams) (p text : string)
    (props : list (string * value)) :
  resolved_package (configParams request) σ = Some p →
  JsString.occurs "," p = false → p ≠ "__proto__" →
  fetch (resolved_url request σ) = Ok text →
  parse text = Ok (VObj props) →
  assoc "downloads" props = None →
  ∃ msg, (getData fetch parse request σ).1
         = Throw (UserError
                    ("Error fetching data from API. Exception details: "
                       +:+ exn_to_string (TypeError msg))
                    unrecoverable_text).
Proof.
  intros Hp Hcomma Hproto Hfetch Hparse Hdl.
  destruct (validateConfig (configParams request) σ) as [l σ'] eqn:Hc.
  rewrite (getData_unfold _ _ _ _ _ _ Hc). cbn [fst].
  rewrite (getData_try_fetched _ _ _ _ _ _ _ _ _ _ Hc Hp Hfetch Hparse), Hcomma.
  rewrite (assign_new_object_key _ _ Hproto).
  unfold getFormattedData. cbn [Object_keys mbind result_bind fmap list_fmap fst foldM].
  change (get (VObj [(p, VObj props)]) p)
    with (Ok (default VUndefined (assoc p [(p, VObj props)]))).
  cbn [assoc]. rewrite String.eqb_refl.
  cbn [default from_option id mbind result_bind get]. rewrite Hdl.
  by eexists.
Qed.

Lemma getData_unexpected_shape_witness :
  ∃ msg, (getData (fun _ => Ok "body")
            (fun _ => Ok (VObj [("error", VStr "package not found")]))
            scenario_1_request scenario_1_store).1
         = Throw (UserError
                    ("Error fetching data from API. Exception details: "
                       +:+ exn_to_string (TypeError msg))
                    unrecoverable_text).
Proof.
  apply (getData_unexpected_shape (fun _ => Ok "body")
           (fun _ => Ok (VObj [("error", VStr "package not found")]))
           scenario_1_request scenario_1_store "left-pad" "body"
           [("error", VStr "package not found")]);
    first [reflexivity | discriminate].
Defined.

(** X14: [getData] run again on the request and the store it left behaves
    as the first run did, outcome and state, when the upstream answers the
    same and the resolved [package] is not the empty string. *)
Theorem getData_twice (fetch : string → result string)
    (parse : string → result value) (request : Request)
    (σ : gmap loc ConfigParams) :
  resolved_package (configParams request) σ ≠ Some "" →
  getData fetch parse (getData fetch parse request σ).2.1
    (getData fetch parse request σ).2.2
  = getData fetch parse request σ.
Proof.
  intros Hne.
  destruct (validateConfig (configParams request) σ) as [l σ'] eqn:Hc.
  pose proof (validateConfig_idempotent _ _ _ _ Hc Hne) as Hc'.
  rewrite (getData_unfold _ _ _ _ _ _ Hc). cbn [fst snd].
  by rewrite (getData_unfold _ _
                (mkRequest (Some l) (dateRange request) (fields request))
                σ' σ' l Hc').
Qed.

Lemma getData_twice_witness :
  getData (fun _ => Ok "body") (fun _ => Ok scenario_1_response)
    (getData (fun _ => Ok "body") (fun _ => Ok scenario_1_response)
       scenario_1_request scenario_1_store).2.1
    (getData (fun _ => Ok "body") (fun _ => Ok scenario_1_response)
       scenario_1_request scenario_1_store).2.2
  = getData (fun _ => Ok "body") (fun _ => Ok scenario_1_response)
      scenario_1_request scenario_1_store.
Proof.
  apply (getData_twice (fun _ => Ok "body") (fun _ => Ok scenario_1_response)
           scenario_1_request scenario_1_store).
  discriminate.
Defined.

(** X15: the URL [getData] fetches is the base, the two dates separated by
    a colon, a slash and the resolved [package]; the resolved [package] is
    always there. *)
Theorem fetchDataFromApi_resolved (fetch : string → result string)
    (request : Request) (σ : gmap loc ConfigParams) :
  ∃ p, resolved_package (configParams request) σ = Some p
    ∧ fetchDataFromApi fetch
        (mkRequest (Some (validateConfig (configParams request) σ).1)
           (dateRange request) (fields request))
        (validateConfig (configParams request) σ).2
      = fetch ("https://api.npmjs.org/downloads/range/"
                 +:+ startDate (dateRange request) +:+ ":"
                 +:+ endDate (dateRange request) +:+ "/" +:+ p).
Proof.
  unfold resolved_package.
  destruct (validateConfig (configParams request) σ) as [l σ'] eqn:Hc.
  destruct (validateConfig_result _ _ _ _ Hc) as (q & rest & Hl).
  eexists. split; [by rewrite Hl|].
  cbn [fst snd]. unfold fetchDataFromApi, deref.
  cbn [configParams dateRange mbind result_bind].
  by rewrite lookup_total_alt, Hl.
Qed.
